(** * NeuroMorphoVis: the morphology analysis panel

  A shallow embedding of [neuromorphovis/interface/ui/analysis_panel.py]:
  the panel's [draw] routine and the [execute] handlers of the two
  operators [analyze.morphology] and [export.analysis_results].

  The handlers are glue around collaborators that live in other modules
  (the loader, the sketch and analysis routines, the file helpers, the
  logger, the group renderer).  Those are parameters of the development.
  A handler is a computation over the session state which records, in
  source order, every access to a session global, every report, and every
  call to a collaborator. *)

From stdpp Require Import base strings gmap functions list.

Section AnalysisPanel.

(** ** Opaque entities of the surrounding add-on *)

Context {Morphology LoadingResult Exception External : Type}.
Context {OptionsRest ForeignWidget : Type}.

(** ** Data model *)

(** A Python value that is either [None] or a [str]. *)
Definition PyPath : Type := option string.

(** Object identities.  [nmv.interface.ui_options] is a reference to an
    options object, whose attribute [io] is a reference to an I/O options
    object; [copy.deepcopy] creates new identities. *)
Definition loc : Type := nat.

Record IOOptions : Type := mkIOOptions {
  output_directory : PyPath;
  analysis_directory : PyPath
}.

Record Options : Type := mkOptions {
  io : loc;
  rest : OptionsRest
}.

(** [context.scene]: the two properties this file uses. *)
Record Scene : Type := mkScene {
  MorphologyAnalyzed : bool;
  OutputDirectory : string
}.

Record Session : Type := mkSession {
  scene : Scene;
  ui_morphology : option Morphology;
  ui_options : loc;
  options_objects : loc -> Options;
  io_objects : loc -> IOOptions;
  next_object : loc;
  external : External
}.

Definition set_MorphologyAnalyzed (b : bool) (s : Session) : Session :=
  {| scene := {| MorphologyAnalyzed := b;
                 OutputDirectory := OutputDirectory (scene s) |};
     ui_morphology := ui_morphology s;
     ui_options := ui_options s;
     options_objects := options_objects s;
     io_objects := io_objects s;
     next_object := next_object s;
     external := external s |}.

Definition set_OutputDirectory (p : string) (s : Session) : Session :=
  {| scene := {| MorphologyAnalyzed := MorphologyAnalyzed (scene s);
                 OutputDirectory := p |};
     ui_morphology := ui_morphology s;
     ui_options := ui_options s;
     options_objects := options_objects s;
     io_objects := io_objects s;
     next_object := next_object s;
     external := external s |}.

(** The I/O options object reached from [nmv.interface.ui_options.io]. *)
Definition ui_io (s : Session) : IOOptions :=
  io_objects s (io (options_objects s (ui_options s))).

(** [nmv.interface.ui_options.io.analysis_directory = p]. *)
Definition set_analysis_directory (p : PyPath) (s : Session) : Session :=
  {| scene := scene s;
     ui_morphology := ui_morphology s;
     ui_options := ui_options s;
     options_objects := options_objects s;
     io_objects :=
       <[ io (options_objects s (ui_options s)) :=
            {| output_directory := output_directory (ui_io s);
               analysis_directory := p |} ]> (io_objects s);
     next_object := next_object s;
     external := external s |}.

(** The panel layout handed to [draw]. *)
#[local] Unset Elimination Schemes.
Inductive Widget : Type :=
| Operator (idname icon : string)
| Column (align : bool) (content : list Widget)
| Row (content : list Widget)
| Foreign (w : ForeignWidget).
#[local] Set Elimination Schemes.

Record Layout : Type := mkLayout {
  enabled : bool;
  widgets : list Widget
}.

(** ** Observable actions *)

Inductive Field : Type :=
| FMorphologyAnalyzed
| FOutputDirectory
| Fui_morphology
| Fui_options.

Inductive Event : Type :=
| Read (f : Field)
| Write (f : Field)
| DeepCopy (source copy : loc)
| Report (severity : gset string) (message : string)
| CallLoadMorphology
| CallSketch (morphology : option Morphology) (options : loc)
| CallAnalyze (morphology : option Morphology)
| CallLog (message : string)
| CallPathExists (path : PyPath)
| CallCleanAndCreateDirectory (path : PyPath)
| CallExport (morphology : option Morphology) (directory : PyPath)
| CallAddAnalysisGroups (morphology : option Morphology)
| LayoutAdd (w : Widget)
| LayoutSetEnabled (b : bool).

(** ** Computations: state, exceptions, trace *)

Inductive Result (A : Type) : Type :=
| Ok (a : A)
| Raise (e : Exception).
Global Arguments Ok {A} a.
Global Arguments Raise {A} e.

Definition M (S A : Type) : Type := S -> Result A * S * list Event.

Definition ret {S A} (a : A) : M S A := fun s => (Ok a, s, []).

Definition bind {S A B} (m : M S A) (k : A -> M S B) : M S B := fun s =>
  match m s with
  | (Ok a, s1, t1) =>
      match k a s1 with
      | (r, s2, t2) => (r, s2, t1 ++ t2)
      end
  | (Raise e, s1, t1) => (Raise e, s1, t1)
  end.

(** Evaluation of a global such as [context.scene.MorphologyAnalyzed]. *)
Definition read {S A} (f : Field) (get : S -> A) : M S A :=
  fun s => (Ok (get s), s, [Read f]).

(** Attribute access on an object that has already been fetched. *)
Definition getattr {S A} (get : S -> A) : M S A :=
  fun s => (Ok (get s), s, []).

(** Assignment to a global. *)
Definition write {S} (f : Field) (upd : S -> S) : M S unit :=
  fun s => (Ok tt, upd s, [Write f]).

(** A host primitive that only acts on the user interface. *)
Definition emit {S} (ev : Event) : M S unit :=
  fun s => (Ok tt, s, [ev]).

(** A call to a collaborator: it may change anything in the state and may
    raise. *)
Definition call {S A} (ev : Event) (f : S -> Result A * S) : M S A :=
  fun s => match f s with (r, s1) => (r, s1, [ev]) end.

#[local] Instance M_ret {S} : MRet (M S) := @ret S.
#[local] Instance M_bind {S} : MBind (M S) := fun A B k m => bind m k.

(** ** The rest of the add-on

    Everything the panel imports from the [nmv] package: two message
    constants and the collaborators.  A collaborator receives the session
    (module globals are reachable from anywhere) and returns normally or
    raises. *)

Class Collaborators : Type := {
  (** [nmv.consts.Messages.PATH_NOT_SET] *)
  PATH_NOT_SET : string;
  (** [nmv.consts.Messages.INVALID_OUTPUT_PATH] *)
  INVALID_OUTPUT_PATH : string;
  (** [nmv.interface.ui.load_morphology(panel_object, context_scene)] *)
  load_morphology : Session -> Result (option LoadingResult) * Session;
  (** [nmv.interface.ui.sketch_morphology_skeleton_guide(morphology, options)] *)
  sketch_morphology_skeleton_guide :
    option Morphology -> loc -> Session -> Result unit * Session;
  (** [nmv.interface.analyze_morphology(morphology, context)] *)
  analyze_morphology : option Morphology -> Session -> Result bool * Session;
  (** [nmv.logger.log(message)] *)
  logger_log : string -> Session -> Result unit * Session;
  (** [nmv.file.ops.path_exists(path)] *)
  path_exists : PyPath -> Session -> Result bool * Session;
  (** [nmv.file.ops.clean_and_create_directory(path)] *)
  clean_and_create_directory : PyPath -> Session -> Result unit * Session;
  (** [nmv.interface.ui.export_analysis_results(morphology, directory)] *)
  export_analysis_results :
    option Morphology -> PyPath -> Session -> Result unit * Session;
  (** [nmv.interface.add_analysis_groups_to_panel(morphology, layout, context)] *)
  add_analysis_groups_to_panel :
    option Morphology -> Session * Layout -> Result unit * (Session * Layout)
}.

Context {nmv : Collaborators}.

(** ** [copy.deepcopy] on an options object

    The copy of the I/O options object and the copy of the options object
    are two new objects; the copy of the options object refers to the copy
    of the I/O options object. *)
Definition deepcopy_reference (s : Session) : loc := S (next_object s).

Definition deepcopy_store (o : loc) (s : Session) : Session :=
  let original := options_objects s o in
  let io_copy := next_object s in
  {| scene := scene s;
     ui_morphology := ui_morphology s;
     ui_options := ui_options s;
     options_objects :=
       <[ deepcopy_reference s := {| io := io_copy; rest := rest original |} ]>
         (options_objects s);
     io_objects :=
       <[ io_copy := io_objects s (io original) ]> (io_objects s);
     next_object := S (S (next_object s));
     external := external s |}.

Definition deepcopy_options (o : loc) : M Session loc := fun s =>
  (Ok (deepcopy_reference s), deepcopy_store o s,
   [DeepCopy o (deepcopy_reference s)]).

(** The session right after [copy.deepcopy(nmv.interface.ui_options)]. *)
Definition session_after_deepcopy (s : Session) : Session :=
  deepcopy_store (ui_options s) s.

(** ** [AnalyzeMorphology.execute] *)

Definition FINISHED : gset string := {[ "FINISHED" ]}.
Definition ERROR : gset string := {[ "ERROR" ]}.
Definition WARNING : gset string := {[ "WARNING" ]}.

Definition AnalyzeMorphology_execute : M Session (gset string) :=
  loading_result ← call CallLoadMorphology load_morphology;
  match loading_result with
  | None =>
      emit (Report ERROR "Please select a morphology file");;
      mret FINISHED
  | Some _ =>
      morphology ← read Fui_morphology ui_morphology;
      shared_options ← read Fui_options ui_options;
      options ← deepcopy_options shared_options;
      call (CallSketch morphology options)
           (sketch_morphology_skeleton_guide morphology options);;
      morphology ← read Fui_morphology ui_morphology;
      analyzed ← call (CallAnalyze morphology) (analyze_morphology morphology);
      write FMorphologyAnalyzed (set_MorphologyAnalyzed analyzed);;
      analyzed ← read FMorphologyAnalyzed (fun s => MorphologyAnalyzed (scene s));
      (if negb analyzed then
         emit (Report WARNING "Corrupted morphology and cannot be analysed!")
       else
         mret tt);;
      mret FINISHED
  end.

(** ** [ExportAnalysisResults.execute] *)

(** The expression [nmv.interface.ui_options.io.<attribute>]. *)
Definition read_ui_options_io {A} (attribute : IOOptions -> A) : M Session A :=
  options ← read Fui_options ui_options;
  getattr (fun s => attribute (io_objects s (io (options_objects s options)))).

Definition ExportAnalysisResults_execute : M Session (gset string) :=
  output ← read_ui_options_io output_directory;
  match output with
  | None =>
      emit (Report ERROR PATH_NOT_SET);;
      mret FINISHED
  | Some _ =>
      path ← read FOutputDirectory (fun s => OutputDirectory (scene s));
      call (CallLog path) (logger_log path);;
      path ← read FOutputDirectory (fun s => OutputDirectory (scene s));
      found ← call (CallPathExists (Some path)) (path_exists (Some path));
      if negb found then
        emit (Report ERROR INVALID_OUTPUT_PATH);;
        mret FINISHED
      else
        directory ← read_ui_options_io analysis_directory;
        found ← call (CallPathExists directory) (path_exists directory);
        (if negb found then
           directory ← read_ui_options_io analysis_directory;
           call (CallCleanAndCreateDirectory directory)
                (clean_and_create_directory directory)
         else
           mret tt);;
        morphology ← read Fui_morphology ui_morphology;
        directory ← read_ui_options_io analysis_directory;
        call (CallExport morphology directory)
             (export_analysis_results morphology directory);;
        mret FINISHED
  end.

(** ** [AnalysisPanel.draw]

    The state of [draw] is the session together with the layout of the
    panel, [self.layout]. *)

Definition layout_add (w : Widget) : M (Session * Layout) unit := fun st =>
  (Ok tt,
   (st.1, {| enabled := enabled st.2; widgets := widgets st.2 ++ [w] |}),
   [LayoutAdd w]).

Definition layout_set_enabled (b : bool) : M (Session * Layout) unit := fun st =>
  (Ok tt,
   (st.1, {| enabled := b; widgets := widgets st.2 |}),
   [LayoutSetEnabled b]).

Definition AnalysisPanel_draw : M (Session * Layout) unit :=
  layout_add (Column true [Operator "analyze.morphology" "MESH_DATA"]);;
  analyzed ← read FMorphologyAnalyzed (fun st => MorphologyAnalyzed (scene st.1));
  (if analyzed : bool then
     morphology ← read Fui_morphology (fun st => ui_morphology st.1);
     call (CallAddAnalysisGroups morphology)
          (add_analysis_groups_to_panel morphology);;
     layout_add (Row [Operator "export.analysis_results" "MESH_DATA"])
   else
     mret tt);;
  morphology ← read Fui_morphology (fun st => ui_morphology st.1);
  match morphology with
  | None => layout_set_enabled false
  | Some _ => mret tt
  end.

(** ** Reading a trace *)

Definition is_report (ev : Event) : bool :=
  match ev with Report _ _ => true | _ => false end.

Definition is_write (ev : Event) : bool :=
  match ev with Write _ => true | _ => false end.

(** Calls that leave this file for a collaborator. *)
Definition is_call (ev : Event) : bool :=
  match ev with
  | CallLoadMorphology | CallSketch _ _ | CallAnalyze _ | CallLog _
  | CallPathExists _ | CallCleanAndCreateDirectory _ | CallExport _ _
  | CallAddAnalysisGroups _ => true
  | _ => false
  end.

(** Calls that write to the file system: directory creation and export. *)
Definition is_filesystem_write (ev : Event) : bool :=
  match ev with
  | CallCleanAndCreateDirectory _ | CallExport _ _ => true
  | _ => false
  end.

Definition is_export_call (ev : Event) : bool :=
  match ev with CallExport _ _ => true | _ => false end.

Definition is_sketch_or_analyze_call (ev : Event) : bool :=
  match ev with CallSketch _ _ | CallAnalyze _ => true | _ => false end.

Definition is_path_exists_call (ev : Event) : bool :=
  match ev with CallPathExists _ => true | _ => false end.

Definition is_set_enabled (ev : Event) : bool :=
  match ev with LayoutSetEnabled _ => true | _ => false end.

Definition reads_field (f : Field) (ev : Event) : bool :=
  match ev, f with
  | Read FMorphologyAnalyzed, FMorphologyAnalyzed
  | Read FOutputDirectory, FOutputDirectory
  | Read Fui_morphology, Fui_morphology
  | Read Fui_options, Fui_options => true
  | _, _ => false
  end.

(** ** Object graphs

    The shared options object and its I/O options object exist already:
    their identities are below the next one to be handed out. *)
Definition allocated (s : Session) : Prop :=
  ui_options s < next_object s
  /\ io (options_objects s (ui_options s)) < next_object s.

(** A routine that receives a reference to an options object and changes
    existing objects only through that reference: the object itself and the
    I/O options object it refers to.  It does not rebind
    [nmv.interface.ui_options]. *)
Definition mutates_only_its_argument
    (f : loc -> Session -> Result unit * Session) : Prop :=
  forall (o : loc) (s : Session),
    ui_options (f o s).2 = ui_options s
    /\ (forall l, l < next_object s -> l <> o ->
          options_objects (f o s).2 l = options_objects s l)
    /\ (forall l, l < next_object s -> l <> io (options_objects s o) ->
          io_objects (f o s).2 l = io_objects s l).

End AnalysisPanel.

(** * A small concrete add-on

    Morphologies are numbered, the external world is a disk with an
    optional selected morphology file and a list of directories.  The
    collaborators below are ordinary implementations of the interfaces
    above; the sketch routine scribbles on the options object it is given. *)

Module Demo.

Record Disk : Type := mkDisk {
  selected_file : option nat;
  healthy : bool;
  directories : list string
}.

Abbreviation DSession :=
  (@Session nat Disk nat).
Abbreviation DLayout := (@Layout nat).
Abbreviation DResult := (@Result string).

Definition with_morphology (m : option nat) (s : DSession) : DSession :=
  {| scene := scene s;
     ui_morphology := m;
     ui_options := ui_options s;
     options_objects := options_objects s;
     io_objects := io_objects s;
     next_object := next_object s;
     external := external s |}.

Definition with_directory (d : string) (s : DSession) : DSession :=
  {| scene := scene s;
     ui_morphology := ui_morphology s;
     ui_options := ui_options s;
     options_objects := options_objects s;
     io_objects := io_objects s;
     next_object := next_object s;
     external := {| selected_file := selected_file (external s);
                    healthy := healthy (external s);
                    directories := d :: directories (external s) |} |}.

Definition load (s : DSession) : DResult (option string) * DSession :=
  match selected_file (external s) with
  | None => (Ok None, s)
  | Some m => (Ok (Some "NEW_MORPHOLOGY_LOADED"), with_morphology (Some m) s)
  end.

(** Clears both paths of the options object it receives and resets the
    rest of that object. *)
Definition sketch (m : option nat) (options : loc) (s : DSession)
  : DResult unit * DSession :=
  (Ok tt,
   {| scene := scene s;
      ui_morphology := ui_morphology s;
      ui_options := ui_options s;
      options_objects :=
        <[ options := {| io := io (options_objects s options); rest := 0 |} ]>
          (options_objects s);
      io_objects :=
        <[ io (options_objects s options) :=
             {| output_directory := None; analysis_directory := None |} ]>
          (io_objects s);
      next_object := next_object s;
      external := external s |}).

Definition analyze (m : option nat) (s : DSession) : DResult bool * DSession :=
  (Ok (healthy (external s)), s).

Definition log (message : string) (s : DSession) : DResult unit * DSession :=
  (Ok tt, s).

Definition exists_on_disk (p : PyPath) (s : DSession) : DResult bool * DSession :=
  match p with
  | None => (Raise "TypeError", s)
  | Some d => (Ok (bool_decide (d ∈ directories (external s))), s)
  end.

Definition create (p : PyPath) (s : DSession) : DResult unit * DSession :=
  match p with
  | None => (Raise "TypeError", s)
  | Some d => (Ok tt, with_directory d s)
  end.

Definition export (m : option nat) (p : PyPath) (s : DSession)
  : DResult unit * DSession :=
  match m with
  | None => (Raise "AttributeError", s)
  | Some _ => (Ok tt, s)
  end.

Definition add_groups (m : option nat) (st : DSession * DLayout)
  : DResult unit * (DSession * DLayout) :=
  (Ok tt,
   (st.1, {| enabled := enabled st.2;
             widgets := widgets st.2 ++ [Foreign (default 0 m)] |})).

#[export] Instance addon : @Collaborators nat string string Disk nat nat := {|
  PATH_NOT_SET := "Output directory is not set";
  INVALID_OUTPUT_PATH := "Output directory is invalid";
  load_morphology := load;
  sketch_morphology_skeleton_guide := sketch;
  analyze_morphology := analyze;
  logger_log := log;
  path_exists := exists_on_disk;
  clean_and_create_directory := create;
  export_analysis_results := export;
  add_analysis_groups_to_panel := add_groups
|}.

(** A session whose options object is object 0 and whose I/O options object
    is object 1. *)
Definition session (analyzed : bool) (scene_path : string)
    (m : option nat) (out ana : PyPath) (disk : Disk) : DSession :=
  {| scene := {| MorphologyAnalyzed := analyzed; OutputDirectory := scene_path |};
     ui_morphology := m;
     ui_options := 0;
     options_objects := fun _ => {| io := 1; rest := 7 |};
     io_objects := fun _ => {| output_directory := out; analysis_directory := ana |};
     next_object := 2;
     external := disk |}.

(** Disks. *)
Definition no_file_selected : Disk :=
  {| selected_file := None; healthy := true; directories := [] |}.

Definition corrupted_file_selected : Disk :=
  {| selected_file := Some 3; healthy := false; directories := [] |}.

Definition output_directory_on_disk : Disk :=
  {| selected_file := Some 3; healthy := true;
     directories := ["/out"] |}.

Definition healthy_file_selected : Disk :=
  {| selected_file := Some 3; healthy := true; directories := [] |}.

Definition empty_layout : DLayout := {| enabled := true; widgets := [] |}.

End Demo.

(** * Registration: [register_panel] and [unregister_panel] *)

(** The class statements of the file, as the host sees them: the name of
    the class, its base class and the [bl_] attributes its body sets. *)
Inductive BlenderBase : Type :=
| bpy_types_Panel
| bpy_types_Operator.

Record BlenderClass : Type := mkBlenderClass {
  class_name : string;
  base : BlenderBase;
  bl_idname : option string;
  bl_label : string;
  bl_space_type : option string;
  bl_region_type : option string;
  bl_category : option string;
  bl_options : option (gset string)
}.

Definition AnalysisPanel : BlenderClass :=
  {| class_name := "AnalysisPanel";
     base := bpy_types_Panel;
     bl_idname := None;
     bl_label := "Morphology Analysis";
     bl_space_type := Some "VIEW_3D";
     bl_region_type := Some "TOOLS";
     bl_category := Some "NeuroMorphoVis";
     bl_options := Some {[ "DEFAULT_CLOSED" ]} |}.

Definition AnalyzeMorphology : BlenderClass :=
  {| class_name := "AnalyzeMorphology";
     base := bpy_types_Operator;
     bl_idname := Some "analyze.morphology";
     bl_label := "Analyze Morphology";
     bl_space_type := None;
     bl_region_type := None;
     bl_category := None;
     bl_options := None |}.

Definition ExportAnalysisResults : BlenderClass :=
  {| class_name := "ExportAnalysisResults";
     base := bpy_types_Operator;
     bl_idname := Some "export.analysis_results";
     bl_label := "Export Results";
     bl_space_type := None;
     bl_region_type := None;
     bl_category := None;
     bl_options := None |}.

Inductive RegistryCall : Type :=
| RegisterClass (c : BlenderClass)
| UnregisterClass (c : BlenderClass).

Section Registration.

Context {Exception Host : Type}.

(** [bpy.utils.register_class] and [bpy.utils.unregister_class]: they act
    on the host and may raise. *)
Class Bpy : Type := {
  register_class : BlenderClass -> Host -> @Result Exception unit * Host;
  unregister_class : BlenderClass -> Host -> @Result Exception unit * Host
}.

Context {bpy : Bpy}.

(** A run of module-level code against the host: result, host afterwards,
    and the host calls made, in order. *)
Definition Script : Type :=
  Host -> @Result Exception unit * Host * list RegistryCall.

Definition host_call (ev : RegistryCall)
    (f : Host -> @Result Exception unit * Host) : Script :=
  fun h => match f h with (r, h1) => (r, h1, [ev]) end.

(** Two statements in sequence: an exception in the first skips the
    second. *)
Definition and_then (first second : Script) : Script := fun h =>
  match first h with
  | (Ok _, h1, t1) =>
      match second h1 with
      | (r, h2, t2) => (r, h2, t1 ++ t2)
      end
  | (Raise e, h1, t1) => (Raise e, h1, t1)
  end.

Definition register_panel : Script :=
  and_then (host_call (RegisterClass AnalysisPanel)
                      (register_class AnalysisPanel))
    (and_then (host_call (RegisterClass AnalyzeMorphology)
                         (register_class AnalyzeMorphology))
              (host_call (RegisterClass ExportAnalysisResults)
                         (register_class ExportAnalysisResults))).

Definition unregister_panel : Script :=
  and_then (host_call (UnregisterClass AnalysisPanel)
                      (unregister_class AnalysisPanel))
    (and_then (host_call (UnregisterClass AnalyzeMorphology)
                         (unregister_class AnalyzeMorphology))
              (host_call (UnregisterClass ExportAnalysisResults)
                         (unregister_class ExportAnalysisResults))).

(** The class a host call is about. *)
Definition call_class (ev : RegistryCall) : BlenderClass :=
  match ev with RegisterClass c | UnregisterClass c => c end.

End Registration.

(** ** More ways to read a trace and a layout *)

Section Reading.

Context {Morphology ForeignWidget : Type}.

(** The operator identifiers of the buttons in a widget, and in a list of
    widgets. *)
Fixpoint widget_idnames (w : @Widget ForeignWidget) : list string :=
  match w with
  | Operator idname _ => [idname]
  | Column _ content => flat_map widget_idnames content
  | Row content => flat_map widget_idnames content
  | Foreign _ => []
  end.

Definition button_idnames (ws : list (@Widget ForeignWidget)) : list string :=
  flat_map widget_idnames ws.

(** The widgets a run added to the layout itself. *)
Fixpoint added_widgets (t : list (@Event Morphology ForeignWidget))
  : list (@Widget ForeignWidget) :=
  match t with
  | [] => []
  | LayoutAdd w :: t' => w :: added_widgets t'
  | _ :: t' => added_widgets t'
  end.

Definition is_renderer_call (ev : @Event Morphology ForeignWidget) : bool :=
  match ev with CallAddAnalysisGroups _ => true | _ => false end.

End Reading.

(** * A concrete host

    The host keeps the list of registered classes; registering a class
    twice and unregistering a class that is not registered raise. *)

Module DemoHost.

#[export] Instance BlenderBase_eq_dec : EqDecision BlenderBase.
Proof. solve_decision. Defined.

#[export] Instance BlenderClass_eq_dec : EqDecision BlenderClass.
Proof. solve_decision. Defined.

Definition register (c : BlenderClass) (registry : list BlenderClass)
  : @Result string unit * list BlenderClass :=
  if decide (c ∈ registry) then (Raise "ValueError", registry)
  else (Ok tt, c :: registry).

Definition unregister (c : BlenderClass) (registry : list BlenderClass)
  : @Result string unit * list BlenderClass :=
  if decide (c ∈ registry) then
    (Ok tt, List.filter (fun d => negb (bool_decide (d = c))) registry)
  else (Raise "RuntimeError", registry).

#[export] Instance host : @Bpy string (list BlenderClass) := {|
  register_class := register;
  unregister_class := unregister
|}.

(** An add-on like [Demo.addon], on a read-only disk: creating a directory
    raises. *)
Definition create_on_read_only_disk (p : PyPath) (s : Demo.DSession)
  : Demo.DResult unit * Demo.DSession :=
  (Raise "PermissionError", s).

Definition read_only_addon : @Collaborators nat string string Demo.Disk nat nat := {|
  PATH_NOT_SET := "Output directory is not set";
  INVALID_OUTPUT_PATH := "Output directory is invalid";
  load_morphology := Demo.load;
  sketch_morphology_skeleton_guide := Demo.sketch;
  analyze_morphology := Demo.analyze;
  logger_log := Demo.log;
  path_exists := Demo.exists_on_disk;
  clean_and_create_directory := create_on_read_only_disk;
  export_analysis_results := Demo.export;
  add_analysis_groups_to_panel := Demo.add_groups
|}.

(** An add-on like [Demo.addon], without a viewport: sketching raises. *)
Definition sketch_without_viewport (m : option nat) (options : loc)
    (s : Demo.DSession) : Demo.DResult unit * Demo.DSession :=
  (Raise "RuntimeError", s).

Definition headless_addon : @Collaborators nat string string Demo.Disk nat nat := {|
  PATH_NOT_SET := "Output directory is not set";
  INVALID_OUTPUT_PATH := "Output directory is invalid";
  load_morphology := Demo.load;
  sketch_morphology_skeleton_guide := sketch_without_viewport;
  analyze_morphology := Demo.analyze;
  logger_log := Demo.log;
  path_exists := Demo.exists_on_disk;
  clean_and_create_directory := Demo.create;
  export_analysis_results := Demo.export;
  add_analysis_groups_to_panel := Demo.add_groups
|}.

(** An add-on like [Demo.addon] whose group renderer needs a morphology:
    it raises when it is given [None]. *)
Definition add_groups_of_loaded (m : option nat)
    (st : Demo.DSession * Demo.DLayout)
  : Demo.DResult unit * (Demo.DSession * Demo.DLayout) :=
  match m with
  | None => (Raise "AttributeError", st)
  | Some n =>
      (Ok tt,
       (st.1, {| enabled := enabled st.2;
                 widgets := widgets st.2 ++ [Foreign n] |}))
  end.

Definition strict_renderer_addon
  : @Collaborators nat string string Demo.Disk nat nat := {|
  PATH_NOT_SET := "Output directory is not set";
  INVALID_OUTPUT_PATH := "Output directory is invalid";
  load_morphology := Demo.load;
  sketch_morphology_skeleton_guide := Demo.sketch;
  analyze_morphology := Demo.analyze;
  logger_log := Demo.log;
  path_exists := Demo.exists_on_disk;
  clean_and_create_directory := Demo.create;
  export_analysis_results := Demo.export;
  add_analysis_groups_to_panel := add_groups_of_loaded
|}.

(** An add-on like [Demo.addon] whose group renderer unloads the
    morphology once it has drawn it. *)
Definition add_groups_and_unload (m : option nat)
    (st : Demo.DSession * Demo.DLayout)
  : Demo.DResult unit * (Demo.DSession * Demo.DLayout) :=
  (Ok tt,
   (Demo.with_morphology None st.1,
    {| enabled := enabled st.2;
       widgets := widgets st.2 ++ [Foreign (default 0 m)] |})).

Definition unloading_renderer_addon
  : @Collaborators nat string string Demo.Disk nat nat := {|
  PATH_NOT_SET := "Output directory is not set";
  INVALID_OUTPUT_PATH := "Output directory is invalid";
  load_morphology := Demo.load;
  sketch_morphology_skeleton_guide := Demo.sketch;
  analyze_morphology := Demo.analyze;
  logger_log := Demo.log;
  path_exists := Demo.exists_on_disk;
  clean_and_create_directory := Demo.create;
  export_analysis_results := Demo.export;
  add_analysis_groups_to_panel := add_groups_and_unload
|}.

End DemoHost.

(** * Properties of the handlers *)

Section Properties.

Context {Morphology LoadingResult Exception External : Type}.
Context {OptionsRest ForeignWidget : Type}.
Context {nmv : @Collaborators Morphology LoadingResult Exception External
                              OptionsRest ForeignWidget}.

Abbreviation Session := (@Session Morphology External OptionsRest).
Abbreviation Layout := (@Layout ForeignWidget).
Abbreviation Event := (@Event Morphology ForeignWidget).
Abbreviation Result := (@Result Exception).

(** Unfolds the computation primitives so that a handler applied to a state
    is a nest of matches on collaborator results. *)
Ltac run :=
  unfold AnalyzeMorphology_execute, ExportAnalysisResults_execute,
         AnalysisPanel_draw, read_ui_options_io, deepcopy_options,
         layout_add, layout_set_enabled,
         mbind, M_bind, mret, M_ret, bind, ret, read, getattr, write, emit, call;
  cbn beta iota.



(** ** The export action *)

(** The run of the export action when both path checks pass: the logger
    returns, the scene-level output directory exists, the analysis directory
    is looked up and created when missing, and the export routine is
    entered. *)
Lemma export_with_valid_paths
    (s s1 s2 s3 s4 s5 : Session) (p : string) (found : bool) (r : Result unit) :
  output_directory (ui_io s) = Some p ->
  logger_log (OutputDirectory (scene s)) s = (Ok tt, s1) ->
  path_exists (Some (OutputDirectory (scene s1))) s1 = (Ok true, s2) ->
  path_exists (analysis_directory (ui_io s2)) s2 = (Ok found, s3) ->
  (if found then s4 = s3
   else clean_and_create_directory (analysis_directory (ui_io s3)) s3
        = (Ok tt, s4)) ->
  export_analysis_results (ui_morphology s4) (analysis_directory (ui_io s4)) s4
    = (r, s5) ->
  ExportAnalysisResults_execute s =
    (match r with Ok _ => Ok FINISHED | Raise e => Raise e end,
     s5,
     [Read Fui_options; Read FOutputDirectory;
      CallLog (OutputDirectory (scene s)); Read FOutputDirectory;
      CallPathExists (Some (OutputDirectory (scene s1)));
      Read Fui_options; CallPathExists (analysis_directory (ui_io s2))]
     ++ (if found then []
         else [Read Fui_options;
               CallCleanAndCreateDirectory (analysis_directory (ui_io s3))])
     ++ [Read Fui_morphology; Read Fui_options;
         CallExport (ui_morphology s4) (analysis_directory (ui_io s4))]).
Proof.
  intros Hout Hlog Hscene Hana Hclean Hexport. unfold ui_io in *.
  run. rewrite Hout. cbn. rewrite Hlog. cbn. rewrite Hscene. cbn.
  rewrite Hana. cbn. destruct found; cbn.
  - subst s4. rewrite Hexport. destruct r; reflexivity.
  - rewrite Hclean. cbn. rewrite Hexport. destruct r; reflexivity.
Qed.

(** C3. The export action ends at once, with one ERROR report and neither
    a directory creation nor an export call, when
    [ui_options.io.output_directory] is [None] (message PATH_NOT_SET) and
    when it is set but the scene-level [OutputDirectory] does not exist
    (message INVALID_OUTPUT_PATH).  The [None] test comes first: in the
    first case no collaborator is called at all. *)
Theorem export_rejects_unusable_output_path
    (s s1 s2 : Session) (message : string) :
  (output_directory (ui_io s) = None
   /\ message = PATH_NOT_SET /\ s2 = s)
  \/ (output_directory (ui_io s) <> None
      /\ logger_log (OutputDirectory (scene s)) s = (Ok tt, s1)
      /\ path_exists (Some (OutputDirectory (scene s1))) s1 = (Ok false, s2)
      /\ message = INVALID_OUTPUT_PATH) ->
  exists t : list Event,
    ExportAnalysisResults_execute s = (Ok FINISHED, s2, t)
    /\ List.filter is_report t = [Report ERROR message]
    /\ List.filter is_filesystem_write t = []
    /\ List.filter is_export_call t = []
    /\ List.filter is_write t = []
    /\ (output_directory (ui_io s) = None -> List.filter is_call t = [])
    /\ (output_directory (ui_io s) <> None ->
        List.filter is_call t
        = [CallLog (OutputDirectory (scene s));
           CallPathExists (Some (OutputDirectory (scene s1)))]).
Proof.
  unfold ui_io.
  intros [(Hnone & -> & ->) | (Hset & Hlog & Hscene & ->)].
  - exists [Read Fui_options; Report ERROR PATH_NOT_SET]. split.
    + run. rewrite Hnone. reflexivity.
    + repeat split; congruence.
  - exists [Read Fui_options; Read FOutputDirectory;
            CallLog (OutputDirectory (scene s)); Read FOutputDirectory;
            CallPathExists (Some (OutputDirectory (scene s1)));
            Report ERROR INVALID_OUTPUT_PATH].
    split.
    + run. destruct (output_directory _) as [p|]; [|congruence]. cbn.
      rewrite Hlog. cbn. rewrite Hscene. reflexivity.
    + repeat split; congruence.
Qed.

(** C4. When both path checks pass, the export action calls
    [clean_and_create_directory] on the analysis directory exactly when
    [path_exists] says the analysis directory is missing, and then calls the
    export routine with the current [ui_morphology] and the analysis
    directory; the creation comes before the export call. *)
Theorem export_creates_missing_analysis_directory
    (s s1 s2 s3 s4 s5 : Session) (p : string) (found : bool) (r : Result unit) :
  output_directory (ui_io s) = Some p ->
  logger_log (OutputDirectory (scene s)) s = (Ok tt, s1) ->
  path_exists (Some (OutputDirectory (scene s1))) s1 = (Ok true, s2) ->
  path_exists (analysis_directory (ui_io s2)) s2 = (Ok found, s3) ->
  (if found then s4 = s3
   else clean_and_create_directory (analysis_directory (ui_io s3)) s3
        = (Ok tt, s4)) ->
  export_analysis_results (ui_morphology s4) (analysis_directory (ui_io s4)) s4
    = (r, s5) ->
  exists (status : Result (gset string)) (t : list Event),
    ExportAnalysisResults_execute s = (status, s5, t)
    /\ List.filter is_filesystem_write t
       = (if found then []
          else [CallCleanAndCreateDirectory (analysis_directory (ui_io s3))])
         ++ [CallExport (ui_morphology s4) (analysis_directory (ui_io s4))]
    /\ ((exists d, In (CallCleanAndCreateDirectory d) t) <-> found = false)
    /\ List.filter is_report t = [].
Proof.
  intros Hout Hlog Hscene Hana Hclean Hexport.
  eexists; eexists. split.
  - eapply export_with_valid_paths; eassumption.
  - destruct found.
    + split; [reflexivity|]. split; [|reflexivity].
      split; [|discriminate].
      intros [d H]. cbn in H.
      repeat (destruct H as [H | H]; [discriminate H|]). destruct H.
    + split; [reflexivity|]. split; [|reflexivity].
      split; [reflexivity|].
      intros _. eexists. cbn. do 8 right. left. reflexivity.
Qed.

(** ** The deep copy handed to the sketch routine *)

(** The copy carries the contents of the shared options object and of its
    I/O options object, under two new identities. *)
Lemma deepcopy_store_copy (s : Session) :
  let s' := session_after_deepcopy s in
  rest (options_objects s' (deepcopy_reference s))
    = rest (options_objects s (ui_options s))
  /\ io_objects s' (io (options_objects s' (deepcopy_reference s))) = ui_io s
  /\ io (options_objects s' (deepcopy_reference s)) = next_object s.
Proof.
  unfold session_after_deepcopy, deepcopy_store, deepcopy_reference, ui_io. cbn.
  rewrite !fn_lookup_insert. cbn. auto.
Qed.

(** Objects that existed before the copy are not touched by it. *)
Lemma deepcopy_store_frame (s : Session) (l : loc) :
  l < next_object s ->
  options_objects (session_after_deepcopy s) l = options_objects s l
  /\ io_objects (session_after_deepcopy s) l = io_objects s l.
Proof.
  intros Hl. unfold session_after_deepcopy, deepcopy_store, deepcopy_reference.
  cbn. rewrite !fn_lookup_insert_ne by lia. auto.
Qed.


(** ** Return status *)

(** C6. Both handlers return [{'FINISHED'}] whenever they return, and they
    raise nothing of their own: a run that ends in an exception ends on a
    call to a collaborator, the one that raised. *)
Theorem handlers_always_finish (s : Session) :
  match AnalyzeMorphology_execute s with
  | (Ok status, _, _) => status = FINISHED
  | (Raise _, _, t) => exists ev : Event, last t = Some ev /\ is_call ev = true
  end
  /\ match ExportAnalysisResults_execute s with
     | (Ok status, _, _) => status = FINISHED
     | (Raise _, _, t) => exists ev : Event, last t = Some ev /\ is_call ev = true
     end.
Proof.
  split.
  - run.
    destruct (load_morphology s) as [[[r|]|e] s1]; cbn;
      [ | reflexivity | eexists; split; reflexivity ].
    destruct (sketch_morphology_skeleton_guide _ _ _) as [[[]|e] s2]; cbn;
      [ | eexists; split; reflexivity ].
    destruct (analyze_morphology _ _) as [[b|e] s3]; cbn;
      [ | eexists; split; reflexivity ].
    destruct b; reflexivity.
  - run.
    destruct (output_directory _) as [p|]; cbn; [ | reflexivity ].
    destruct (logger_log _ _) as [[[]|e] s1]; cbn;
      [ | eexists; split; reflexivity ].
    destruct (path_exists _ s1) as [[found|e] s2]; cbn;
      [ | eexists; split; reflexivity ].
    destruct found; cbn; [ | reflexivity ].
    destruct (path_exists _ s2) as [[found|e] s3]; cbn;
      [ | eexists; split; reflexivity ].
    destruct found; cbn.
    + destruct (export_analysis_results _ _ _) as [[[]|e] s4]; cbn;
        [ reflexivity | eexists; split; reflexivity ].
    + destruct (clean_and_create_directory _ _) as [[[]|e] s4]; cbn;
        [ | eexists; split; reflexivity ].
      destruct (export_analysis_results _ _ _) as [[[]|e] s5]; cbn;
        [ reflexivity | eexists; split; reflexivity ].
Qed.

(** ** The panel *)

(** C7. The draw routine disables the layout exactly when [ui_morphology]
    is [None], whatever [MorphologyAnalyzed] is; when it is not [None] the
    routine does not assign [layout.enabled].  The test is the last
    statement of [draw]: it sees the [ui_morphology] of the session in which
    [draw] ends, which is the one [draw] was entered with when
    [MorphologyAnalyzed] is false and, more generally, whenever the group
    renderer does not rebind [ui_morphology]. *)
Theorem draw_disables_layout_without_morphology
    (s : Session) (lay : Layout) (st : Session * Layout) (t : list Event) :
  AnalysisPanel_draw (s, lay) = (Ok tt, st, t) ->
  (ui_morphology st.1 = None ->
     enabled st.2 = false
     /\ List.filter is_set_enabled t = [LayoutSetEnabled false]
     /\ last t = Some (LayoutSetEnabled false))
  /\ (ui_morphology st.1 <> None -> List.filter is_set_enabled t = [])
  /\ (MorphologyAnalyzed (scene s) = false ->
      ui_morphology st.1 = ui_morphology s)
  /\ ((forall m st0,
         ui_morphology (add_analysis_groups_to_panel m st0).2.1
         = ui_morphology st0.1) ->
      ui_morphology st.1 = ui_morphology s).
Proof.
  run. cbn.
  destruct (MorphologyAnalyzed (scene s)); cbn.
  - pose (entry := (s, {| enabled := enabled lay;
                          widgets := widgets lay
                            ++ [Column true
                                  [Operator "analyze.morphology" "MESH_DATA"]] |})).
    fold entry.
    destruct (add_analysis_groups_to_panel (ui_morphology s) entry)
      as [[[]|e] [s' lay']] eqn:Hrender; cbn; [ | discriminate ].
    assert (Hkept : (forall m st0,
                        ui_morphology (add_analysis_groups_to_panel m st0).2.1
                        = ui_morphology st0.1) ->
                    ui_morphology s' = ui_morphology s).
    { intros Hkeep. specialize (Hkeep (ui_morphology s) entry).
      rewrite Hrender in Hkeep. exact Hkeep. }
    destruct (ui_morphology s') as [m|] eqn:Hm'; cbn; intros [= <- <-]; cbn;
      rewrite ?Hm'; repeat split; try discriminate; try congruence; auto.
  - destruct (ui_morphology s) as [m|] eqn:Hm; cbn; intros [= <- <-]; cbn;
      repeat split; try discriminate; try congruence; auto.
Qed.

(** C9. With [MorphologyAnalyzed] true and [ui_morphology] [None], the draw
    routine calls the group renderer with a [None] morphology: the branch on
    [MorphologyAnalyzed] comes first, and the test that disables the layout
    is reached only after the renderer has returned. *)
Theorem draw_renders_groups_before_null_check (s : Session) (lay : Layout) :
  MorphologyAnalyzed (scene s) = true ->
  ui_morphology s = None ->
  exists t : list Event,
    (AnalysisPanel_draw (s, lay)).2
    = [LayoutAdd (Column true [Operator "analyze.morphology" "MESH_DATA"]);
       Read FMorphologyAnalyzed; Read Fui_morphology;
       CallAddAnalysisGroups None] ++ t
    /\ match add_analysis_groups_to_panel None
               (s, {| enabled := enabled lay;
                      widgets := widgets lay
                        ++ [Column true
                              [Operator "analyze.morphology" "MESH_DATA"]] |})
       with
       | (Raise _, _) => t = []
       | (Ok _, st) =>
           t = [LayoutAdd (Row [Operator "export.analysis_results" "MESH_DATA"]);
                Read Fui_morphology]
               ++ match ui_morphology st.1 with
                  | None => [LayoutSetEnabled false]
                  | Some _ => []
                  end
       end.
Proof.
  intros Hflag Hnone. run. cbn. rewrite Hflag. cbn. rewrite Hnone. cbn.
  destruct (add_analysis_groups_to_panel _ _) as [[[]|e] [s' lay']]; cbn.
  - destruct (ui_morphology s'); cbn; eexists; split; reflexivity.
  - exists []. split; reflexivity.
Qed.

(** ** What the export action touches *)

(** C8.  The export action never reads [MorphologyAnalyzed] and
    never assigns a session global; it does read [ui_options] (for the two
    paths) and [ui_morphology] (to pass it on).  When both path checks pass
    it calls the export routine with whatever [ui_morphology] is at that
    point: nothing in it asks for a successful analysis or a loaded
    morphology. *)
Theorem export_has_no_analysis_guard (s : Session) :
  forallb (fun ev => negb (reads_field FMorphologyAnalyzed ev)
                     && negb (is_write ev))
          (ExportAnalysisResults_execute s).2 = true
  /\ (forall (s1 s2 s3 s4 s5 : Session) p found (r : Result unit),
        output_directory (ui_io s) = Some p ->
        logger_log (OutputDirectory (scene s)) s = (Ok tt, s1) ->
        path_exists (Some (OutputDirectory (scene s1))) s1 = (Ok true, s2) ->
        path_exists (analysis_directory (ui_io s2)) s2 = (Ok found, s3) ->
        (if found then s4 = s3
         else clean_and_create_directory (analysis_directory (ui_io s3)) s3
              = (Ok tt, s4)) ->
        export_analysis_results (ui_morphology s4)
          (analysis_directory (ui_io s4)) s4 = (r, s5) ->
        List.filter is_export_call (ExportAnalysisResults_execute s).2
        = [CallExport (ui_morphology s4) (analysis_directory (ui_io s4))]
        /\ (ExportAnalysisResults_execute s).1.2 = s5).
Proof.
  split.
  - run.
    destruct (output_directory _) as [p|]; cbn; [ | reflexivity ].
    destruct (logger_log _ _) as [[[]|e] s1]; cbn; [ | reflexivity ].
    destruct (path_exists _ s1) as [[found|e] s2]; cbn; [ | reflexivity ].
    destruct found; cbn; [ | reflexivity ].
    destruct (path_exists _ s2) as [[found|e] s3]; cbn; [ | reflexivity ].
    destruct found; cbn.
    + destruct (export_analysis_results _ _ _) as [[[]|e] s4]; reflexivity.
    + destruct (clean_and_create_directory _ _) as [[[]|e] s4]; cbn;
        [ | reflexivity ].
      destruct (export_analysis_results _ _ _) as [[[]|e] s5]; reflexivity.
  - intros s1 s2 s3 s4 s5 p found r Hout Hlog Hscene Hana Hclean Hexport.
    rewrite (export_with_valid_paths s s1 s2 s3 s4 s5 p found r) by assumption.
    destruct found; split; reflexivity.
Qed.

(** C10.  The path the export action validates is the scene property
    [OutputDirectory]; the path it creates and exports into is the attribute
    [analysis_directory] of the shared I/O options.  These are two locations
    of the state: assigning one leaves the other as it was.  Once the scene
    path has passed, creation and export go ahead on the analysis directory,
    whatever its relation to the validated path. *)
Theorem export_writes_to_a_path_it_did_not_validate
    (s s1 s2 s3 s4 s5 : Session) (p : string) (found : bool) (r : Result unit) :
  output_directory (ui_io s) = Some p ->
  logger_log (OutputDirectory (scene s)) s = (Ok tt, s1) ->
  path_exists (Some (OutputDirectory (scene s1))) s1 = (Ok true, s2) ->
  path_exists (analysis_directory (ui_io s2)) s2 = (Ok found, s3) ->
  (if found then s4 = s3
   else clean_and_create_directory (analysis_directory (ui_io s3)) s3
        = (Ok tt, s4)) ->
  export_analysis_results (ui_morphology s4) (analysis_directory (ui_io s4)) s4
    = (r, s5) ->
  exists (status : Result (gset string)) (t : list Event),
    ExportAnalysisResults_execute s = (status, s5, t)
    /\ List.filter is_path_exists_call t
       = [CallPathExists (Some (OutputDirectory (scene s1)));
          CallPathExists (analysis_directory (ui_io s2))]
    /\ List.filter is_filesystem_write t
       = (if found then []
          else [CallCleanAndCreateDirectory (analysis_directory (ui_io s3))])
         ++ [CallExport (ui_morphology s4) (analysis_directory (ui_io s4))]
    /\ List.filter is_report t = []
    /\ (analysis_directory (ui_io s4) <> Some (OutputDirectory (scene s1)) ->
        forall m d, In (CallExport m d) t ->
                    d <> Some (OutputDirectory (scene s1)))
    /\ (forall q : PyPath,
          OutputDirectory (scene (set_analysis_directory q s))
          = OutputDirectory (scene s)
          /\ analysis_directory (ui_io (set_analysis_directory q s)) = q)
    /\ (forall q : string,
          ui_io (set_OutputDirectory q s) = ui_io s
          /\ OutputDirectory (scene (set_OutputDirectory q s)) = q).
Proof.
  intros Hout Hlog Hscene Hana Hclean Hexport.
  eexists; eexists. split.
  - eapply export_with_valid_paths; eassumption.
  - split; [destruct found; reflexivity|].
    split; [destruct found; reflexivity|].
    split; [destruct found; reflexivity|].
    split; [|split].
    + intros Hdiff m d H. destruct found; cbn in H;
        repeat match goal with
               | H : _ \/ _ |- _ => destruct H as [H | H]
               | H : False |- _ => destruct H
               | H : _ = CallExport _ _ |- _ =>
                   first [ discriminate H | injection H as <- <-; exact Hdiff ]
               end.
    + intros q. split; [reflexivity|].
      unfold ui_io, set_analysis_directory. cbn.
      rewrite fn_lookup_insert. reflexivity.
    + intros q. split; reflexivity.
Qed.

End Properties.

(** * Concrete runs *)

#[local] Existing Instance Demo.addon.



Lemma export_rejects_unusable_output_path_witness :
  let unset :=
    Demo.session true "/out" (Some 3) None None Demo.output_directory_on_disk in
  let missing :=
    Demo.session true "/nowhere" (Some 3) (Some "/out") (Some "/out/analysis")
                 Demo.output_directory_on_disk in
  (exists t,
      ExportAnalysisResults_execute unset = (Ok FINISHED, unset, t)
      /\ List.filter is_report t = [Report ERROR "Output directory is not set"]
      /\ List.filter is_filesystem_write t = []
      /\ List.filter is_call t = [])
  /\ (exists t,
        ExportAnalysisResults_execute missing = (Ok FINISHED, missing, t)
        /\ List.filter is_report t = [Report ERROR "Output directory is invalid"]
        /\ List.filter is_filesystem_write t = []
        /\ List.filter is_call t
           = [CallLog "/nowhere"; CallPathExists (Some "/nowhere")]).
Proof.
  intros unset missing. split.
  - destruct (export_rejects_unusable_output_path unset unset unset PATH_NOT_SET)
      as (t & Hrun & Hreport & Hfs & _ & _ & Hcalls & _).
    + left. repeat split.
    + exists t. repeat split; try assumption. apply Hcalls. reflexivity.
  - destruct (export_rejects_unusable_output_path
                missing missing missing INVALID_OUTPUT_PATH)
      as (t & Hrun & Hreport & Hfs & _ & _ & _ & Hcalls).
    + right. repeat split. discriminate.
    + exists t. repeat split; try assumption. apply Hcalls. discriminate.
Defined.

Lemma export_creates_missing_analysis_directory_witness :
  let s :=
    Demo.session true "/out" (Some 3) (Some "/out") (Some "/out/analysis")
                 Demo.output_directory_on_disk in
  let created := Demo.with_directory "/out/analysis" s in
  exists status t,
    ExportAnalysisResults_execute s = (status, created, t)
    /\ List.filter is_filesystem_write t
       = [CallCleanAndCreateDirectory (Some "/out/analysis");
          CallExport (Some 3) (Some "/out/analysis")]
    /\ ((exists d, In (CallCleanAndCreateDirectory d) t) <-> false = false)
    /\ List.filter is_report t = [].
Proof.
  intros s created.
  apply (export_creates_missing_analysis_directory
           s s s s created created "/out" false (Ok tt)); reflexivity.
Defined.


(** Without the copy the same sketch routine would clear the shared
    paths. *)
Example sketch_on_shared_reference_clears_paths :
  let s1 :=
    Demo.session false "/out" (Some 3) (Some "/out") (Some "/out/analysis")
                 Demo.healthy_file_selected in
  ui_io (Demo.sketch (Some 3) (ui_options s1) s1).2
  = {| output_directory := None; analysis_directory := None |}
  /\ ui_io s1
     = {| output_directory := Some "/out";
          analysis_directory := Some "/out/analysis" |}.
Proof. split; reflexivity. Qed.

Lemma draw_disables_layout_without_morphology_witness :
  let s :=
    Demo.session true "/out" None (Some "/out") None Demo.healthy_file_selected in
  let out := AnalysisPanel_draw (s, Demo.empty_layout) in
  ui_morphology s = None
  /\ out.1.1 = Ok tt
  /\ enabled out.1.2.2 = false
  /\ List.filter is_set_enabled out.2 = [LayoutSetEnabled false]
  /\ last out.2 = Some (LayoutSetEnabled false).
Proof.
  intros s out.
  split; [reflexivity|]. split; [reflexivity|].
  destruct (draw_disables_layout_without_morphology
              s Demo.empty_layout out.1.2 out.2) as (Hnone & _ & _ & Hkept).
  - reflexivity.
  - apply Hnone. rewrite Hkept; [reflexivity|].
    intros m st0. reflexivity.
Defined.

(** C7, worded for the session [draw] is entered with, does not hold for
    every group renderer.  With [MorphologyAnalyzed] true and no morphology
    loaded, a renderer that raises on [None] ends [draw] before the test, and
    the layout stays enabled; with a morphology loaded, a renderer that
    unloads it has the layout disabled. *)
Lemma draw_null_check_comes_after_renderer :
  let unloaded :=
    Demo.session true "/out" None (Some "/out") None
                 Demo.healthy_file_selected in
  let loaded :=
    Demo.session true "/out" (Some 3) (Some "/out") None
                 Demo.healthy_file_selected in
  let raised :=
    AnalysisPanel_draw (nmv := DemoHost.strict_renderer_addon)
                       (unloaded, Demo.empty_layout) in
  let rebound :=
    AnalysisPanel_draw (nmv := DemoHost.unloading_renderer_addon)
                       (loaded, Demo.empty_layout) in
  ~ (ui_morphology unloaded = None ->
     enabled raised.1.2.2 = false
     \/ In (LayoutSetEnabled false) raised.2)
  /\ raised.1.1 = Raise "AttributeError"
  /\ enabled raised.1.2.2 = true
  /\ List.filter is_set_enabled raised.2 = []
  /\ ~ (ui_morphology loaded <> None ->
        List.filter is_set_enabled rebound.2 = [])
  /\ enabled rebound.1.2.2 = false
  /\ List.filter is_set_enabled rebound.2 = [LayoutSetEnabled false].
Proof.
  intros unloaded loaded raised rebound.
  split; [|split; [reflexivity|split; [reflexivity|split; [reflexivity|]]]].
  - intros H. destruct (H eq_refl) as [Hoff | Hin].
    + discriminate Hoff.
    + cbn in Hin.
      repeat (destruct Hin as [Hin | Hin]; [discriminate Hin|]). destruct Hin.
  - split; [|split; reflexivity].
    intros H. assert (Hloaded : ui_morphology loaded <> None) by discriminate.
    specialize (H Hloaded). discriminate H.
Qed.

Lemma draw_renders_groups_before_null_check_witness :
  let s :=
    Demo.session true "/out" None (Some "/out") None Demo.healthy_file_selected in
  exists t,
    (AnalysisPanel_draw (s, Demo.empty_layout)).2
    = [LayoutAdd (Column true [Operator "analyze.morphology" "MESH_DATA"]);
       Read FMorphologyAnalyzed; Read Fui_morphology;
       CallAddAnalysisGroups None] ++ t
    /\ t = [LayoutAdd (Row [Operator "export.analysis_results" "MESH_DATA"]);
            Read Fui_morphology; LayoutSetEnabled false].
Proof.
  intros s.
  destruct (draw_renders_groups_before_null_check s Demo.empty_layout)
    as (t & Htrace & Ht); [reflexivity | reflexivity |].
  exists t. split; [exact Htrace | exact Ht].
Defined.

(** C8, as worded with "never reads" for all three globals, does not hold:
    the first thing the export action does is evaluate
    [nmv.interface.ui_options], and before the export call it evaluates
    [nmv.interface.ui_morphology]. *)
Lemma export_reads_shared_options_and_morphology :
  let s :=
    Demo.session false "/out" (Some 3) (Some "/out") (Some "/out")
                 Demo.output_directory_on_disk in
  let t := (ExportAnalysisResults_execute s).2 in
  ~ (forallb (fun ev => negb (reads_field FMorphologyAnalyzed ev
                              || reads_field Fui_morphology ev
                              || reads_field Fui_options ev)
                        && negb (is_write ev)) t = true)
  /\ existsb (reads_field Fui_options) t = true
  /\ existsb (reads_field Fui_morphology) t = true.
Proof.
  intros s t. split; [|split]; [ | reflexivity | reflexivity ].
  intros H. discriminate H.
Qed.

Lemma export_has_no_analysis_guard_witness :
  let s :=
    Demo.session false "/out" None (Some "/out") (Some "/out/analysis")
                 Demo.output_directory_on_disk in
  MorphologyAnalyzed (scene s) = false
  /\ ui_morphology s = None
  /\ forallb (fun ev => negb (reads_field FMorphologyAnalyzed ev)
                        && negb (is_write ev))
             (ExportAnalysisResults_execute s).2 = true
  /\ List.filter is_export_call (ExportAnalysisResults_execute s).2
     = [CallExport None (Some "/out/analysis")].
Proof.
  intros s.
  destruct (export_has_no_analysis_guard s) as [Hquiet Hcall].
  split; [reflexivity|]. split; [reflexivity|]. split; [exact Hquiet|].
  apply (Hcall s s s (Demo.with_directory "/out/analysis" s)
               (Demo.with_directory "/out/analysis" s)
               "/out" false (Raise "AttributeError")); reflexivity.
Defined.

Lemma export_writes_to_a_path_it_did_not_validate_witness :
  let s :=
    Demo.session true "/out" (Some 3) (Some "/out") (Some "/elsewhere")
                 Demo.output_directory_on_disk in
  let created := Demo.with_directory "/elsewhere" s in
  exists status t,
    ExportAnalysisResults_execute s = (status, created, t)
    /\ List.filter is_path_exists_call t
       = [CallPathExists (Some "/out"); CallPathExists (Some "/elsewhere")]
    /\ List.filter is_filesystem_write t
       = [CallCleanAndCreateDirectory (Some "/elsewhere");
          CallExport (Some 3) (Some "/elsewhere")].
Proof.
  intros s created.
  destruct (export_writes_to_a_path_it_did_not_validate
              s s s s created created "/out" false (Ok tt))
    as (status & t & Hrun & Hchecks & Hwrites & _); try reflexivity.
  exists status, t. repeat split; assumption.
Defined.

(** * Properties of registration *)

Section RegistrationProperties.

Context {Exception Host : Type}.
Context {bpy : @Bpy Exception Host}.

Ltac run_script :=
  unfold register_panel, unregister_panel, and_then, host_call; cbn beta iota.

(** A registration that completes has made the three calls. *)
Lemma register_panel_completed (h h' : Host) (t : list RegistryCall) :
  register_panel h = (Ok tt, h', t) ->
  t = [RegisterClass AnalysisPanel; RegisterClass AnalyzeMorphology;
       RegisterClass ExportAnalysisResults].
Proof.
  run_script.
  destruct (register_class AnalysisPanel h) as [[[]|e] h1]; cbn;
    [ | discriminate ].
  destruct (register_class AnalyzeMorphology h1) as [[[]|e] h2]; cbn;
    [ | discriminate ].
  destruct (register_class ExportAnalysisResults h2) as [[[]|e] h3]; cbn;
    [ | discriminate ].
  intros [= <- <-]. reflexivity.
Qed.

(** The three registrations of a completed [register_panel], each on the
    host the one before left. *)
Lemma register_panel_steps (h h' : Host) (t : list RegistryCall) :
  register_panel h = (Ok tt, h', t) ->
  exists h1 h2,
    register_class AnalysisPanel h = (Ok tt, h1)
    /\ register_class AnalyzeMorphology h1 = (Ok tt, h2)
    /\ register_class ExportAnalysisResults h2 = (Ok tt, h').
Proof.
  run_script.
  destruct (register_class AnalysisPanel h) as [[[]|e] h1]; cbn;
    [ | discriminate ].
  destruct (register_class AnalyzeMorphology h1) as [[[]|e] h2] eqn:H2; cbn;
    [ | discriminate ].
  destruct (register_class ExportAnalysisResults h2) as [[[]|e] h3] eqn:H3; cbn;
    [ | discriminate ].
  intros [= <- <-]. eauto.
Qed.

(** X1. [register_panel] registers the panel, then the analyze operator,
    then the export operator.  The first registration that raises ends it:
    the classes after it are not registered, and those before it are not
    unregistered again. *)
Theorem register_panel_stops_at_first_failure (h : Host) :
  match register_panel h with
  | (Ok _, h', t) =>
      t = [RegisterClass AnalysisPanel; RegisterClass AnalyzeMorphology;
           RegisterClass ExportAnalysisResults]
      /\ exists h1 h2,
           register_class AnalysisPanel h = (Ok tt, h1)
           /\ register_class AnalyzeMorphology h1 = (Ok tt, h2)
           /\ register_class ExportAnalysisResults h2 = (Ok tt, h')
  | (Raise e, h', t) =>
      (t = [RegisterClass AnalysisPanel]
       /\ register_class AnalysisPanel h = (Raise e, h'))
      \/ (exists h1,
            t = [RegisterClass AnalysisPanel; RegisterClass AnalyzeMorphology]
            /\ register_class AnalysisPanel h = (Ok tt, h1)
            /\ register_class AnalyzeMorphology h1 = (Raise e, h'))
      \/ (exists h1 h2,
            t = [RegisterClass AnalysisPanel; RegisterClass AnalyzeMorphology;
                 RegisterClass ExportAnalysisResults]
            /\ register_class AnalysisPanel h = (Ok tt, h1)
            /\ register_class AnalyzeMorphology h1 = (Ok tt, h2)
            /\ register_class ExportAnalysisResults h2 = (Raise e, h'))
  end.
Proof.
  run_script.
  destruct (register_class AnalysisPanel h) as [[[]|e] h1] eqn:H1; cbn;
    [ | left; auto ].
  destruct (register_class AnalyzeMorphology h1) as [[[]|e] h2] eqn:H2; cbn;
    [ | right; left; eauto ].
  destruct (register_class ExportAnalysisResults h2) as [[[]|e] h3] eqn:H3; cbn.
  - split; [reflexivity | eauto].
  - right; right. eauto 10.
Qed.

(** X2. [unregister_panel] unregisters the classes in the order in which
    [register_panel] registers them, not in reverse, each on the host the
    previous call left.  The first unregistration that raises ends it with
    that exception, on the host that call left: the classes after it stay
    registered. *)
Theorem unregister_panel_follows_registration_order (h h0 : Host) :
  match unregister_panel h with
  | (Ok _, h', t) =>
      t = [UnregisterClass AnalysisPanel; UnregisterClass AnalyzeMorphology;
           UnregisterClass ExportAnalysisResults]
      /\ (exists h1 h2,
            unregister_class AnalysisPanel h = (Ok tt, h1)
            /\ unregister_class AnalyzeMorphology h1 = (Ok tt, h2)
            /\ unregister_class ExportAnalysisResults h2 = (Ok tt, h'))
      /\ forall h1 t0, register_panel h0 = (Ok tt, h1, t0) ->
                       map call_class t = map call_class t0
  | (Raise e, h', t) =>
      (t = [UnregisterClass AnalysisPanel]
       /\ unregister_class AnalysisPanel h = (Raise e, h'))
      \/ (exists h1,
            t = [UnregisterClass AnalysisPanel; UnregisterClass AnalyzeMorphology]
            /\ unregister_class AnalysisPanel h = (Ok tt, h1)
            /\ unregister_class AnalyzeMorphology h1 = (Raise e, h'))
      \/ (exists h1 h2,
            t = [UnregisterClass AnalysisPanel; UnregisterClass AnalyzeMorphology;
                 UnregisterClass ExportAnalysisResults]
            /\ unregister_class AnalysisPanel h = (Ok tt, h1)
            /\ unregister_class AnalyzeMorphology h1 = (Ok tt, h2)
            /\ unregister_class ExportAnalysisResults h2 = (Raise e, h'))
  end.
Proof.
  unfold unregister_panel, and_then, host_call; cbn beta iota.
  destruct (unregister_class AnalysisPanel h) as [[[]|e] h1] eqn:H1; cbn;
    [ | left; auto ].
  destruct (unregister_class AnalyzeMorphology h1) as [[[]|e] h2] eqn:H2; cbn;
    [ | right; left; eauto ].
  destruct (unregister_class ExportAnalysisResults h2) as [[[]|e] h3] eqn:H3; cbn.
  - split; [reflexivity|]. split; [eauto|]. intros h4 t0 Hreg.
    rewrite (register_panel_completed _ _ _ Hreg). reflexivity.
  - right; right. eauto 10.
Qed.

(** The three classes are different classes. *)
Lemma panel_classes_distinct :
  AnalysisPanel <> AnalyzeMorphology
  /\ AnalysisPanel <> ExportAnalysisResults
  /\ AnalyzeMorphology <> ExportAnalysisResults.
Proof. repeat split; discriminate. Qed.

(** X3. On a host where unregistering a class undoes its registration and
    where registering one class and unregistering another do not interfere,
    [unregister_panel] after a completed [register_panel] completes and
    gives back the host as it was. *)
Theorem unregister_panel_undoes_register_panel
    (h h' : Host) (t : list RegistryCall) :
  (forall c g g',
      register_class c g = (Ok tt, g') -> unregister_class c g' = (Ok tt, g)) ->
  (forall c d g g1 g2,
      c <> d ->
      register_class d g = (Ok tt, g1) ->
      unregister_class c g = (Ok tt, g2) ->
      exists g3, unregister_class c g1 = (Ok tt, g3)
                 /\ register_class d g2 = (Ok tt, g3)) ->
  register_panel h = (Ok tt, h', t) ->
  unregister_panel h' =
    (Ok tt, h,
     [UnregisterClass AnalysisPanel; UnregisterClass AnalyzeMorphology;
      UnregisterClass ExportAnalysisResults]).
Proof.
  intros Hundo Hcomm Hreg.
  destruct (register_panel_steps h h' t Hreg) as (hP & hPA & HP & HA & HE).
  destruct panel_classes_distinct as (HPA & HPE & HAE).
  (* the panel is unregistered under the two operators *)
  destruct (Hcomm AnalysisPanel AnalyzeMorphology hP hPA h HPA HA (Hundo _ _ _ HP))
    as (hA & HuP1 & HA').
  destruct (Hcomm AnalysisPanel ExportAnalysisResults hPA h' hA HPE HE HuP1)
    as (hAE & HuP2 & HE').
  (* then the analyze operator under the export operator *)
  destruct (Hcomm AnalyzeMorphology ExportAnalysisResults hA hAE h HAE HE'
                  (Hundo _ _ _ HA'))
    as (hE & HuA & HE'').
  pose proof (Hundo _ _ _ HE'') as HuE.
  unfold unregister_panel, and_then, host_call.
  rewrite HuP2. cbn. rewrite HuA. cbn. rewrite HuE. reflexivity.
Qed.

End RegistrationProperties.

(** * More properties of the handlers and of the panel *)

Section MoreProperties.

Context {Morphology LoadingResult Exception External : Type}.
Context {OptionsRest ForeignWidget : Type}.
Context {nmv : @Collaborators Morphology LoadingResult Exception External
                              OptionsRest ForeignWidget}.

Abbreviation Session := (@Session Morphology External OptionsRest).
Abbreviation Layout := (@Layout ForeignWidget).
Abbreviation Event := (@Event Morphology ForeignWidget).
Abbreviation Result := (@Result Exception).

Ltac run_handler :=
  unfold AnalyzeMorphology_execute, ExportAnalysisResults_execute,
         AnalysisPanel_draw, read_ui_options_io, deepcopy_options,
         layout_add, layout_set_enabled,
         mbind, M_bind, mret, M_ret, bind, ret, read, getattr, write, emit, call;
  cbn beta iota.

(** X4. While [MorphologyAnalyzed] is false (its default), [draw] cannot
    fail and calls no collaborator: it adds the Analyze button and nothing
    else, leaves the session as it is, and disables the layout exactly when
    no morphology is loaded. *)
Theorem draw_before_analysis
    (s : Session) (lay : Layout) :
  MorphologyAnalyzed (scene s) = false ->
  exists (lay' : Layout) (t : list Event),
    AnalysisPanel_draw (s, lay) = (Ok tt, (s, lay'), t)
    /\ widgets lay'
       = widgets lay ++ [Column true [Operator "analyze.morphology" "MESH_DATA"]]
    /\ enabled lay'
       = match ui_morphology s with None => false | Some _ => enabled lay end
    /\ List.filter is_call t = []
    /\ added_widgets t
       = [Column true [Operator "analyze.morphology" "MESH_DATA"]].
Proof.
  intros Hflag. run_handler. cbn. rewrite Hflag. cbn.
  destruct (ui_morphology s); cbn; do 2 eexists; repeat split.
Qed.

(** X5. [draw] never assigns a session global and never reports; the only
    collaborator it calls is the group renderer, at most once; and the first
    thing it does, in every run, is add the Analyze button. *)
Theorem draw_only_renders (s : Session) (lay : Layout) :
  let t := (AnalysisPanel_draw (s, lay)).2 in
  List.filter is_write t = []
  /\ List.filter is_report t = []
  /\ List.filter is_call t = List.filter is_renderer_call t
  /\ length (List.filter is_call t) <= 1
  /\ exists t',
       t = LayoutAdd (Column true [Operator "analyze.morphology" "MESH_DATA"])
           :: Read FMorphologyAnalyzed :: t'.
Proof.
  run_handler. cbn.
  destruct (MorphologyAnalyzed (scene s)); cbn.
  - destruct (add_analysis_groups_to_panel _ _) as [[[]|e] [s' lay']]; cbn.
    + destruct (ui_morphology s'); cbn; repeat split; eauto.
    + repeat split; eauto.
  - destruct (ui_morphology s); cbn; repeat split; eauto.
Qed.

(** X6. The Export button is drawn only in a run in which
    [MorphologyAnalyzed] was true and the group renderer returned; it is
    then the second widget [draw] adds, after the Analyze button. *)
Theorem draw_export_button_needs_analysis (s : Session) (lay : Layout) :
  let t := (AnalysisPanel_draw (s, lay)).2 in
  In "export.analysis_results" (button_idnames (added_widgets t)) ->
  MorphologyAnalyzed (scene s) = true
  /\ (exists st,
        add_analysis_groups_to_panel (ui_morphology s)
          (s, {| enabled := enabled lay;
                 widgets := widgets lay
                   ++ [Column true
                         [Operator "analyze.morphology" "MESH_DATA"]] |})
        = (Ok tt, st))
  /\ added_widgets t
     = [Column true [Operator "analyze.morphology" "MESH_DATA"];
        Row [Operator "export.analysis_results" "MESH_DATA"]].
Proof.
  run_handler. cbn.
  destruct (MorphologyAnalyzed (scene s)); cbn.
  - destruct (add_analysis_groups_to_panel _ _) as [[[]|e] [s' lay']]; cbn.
    + destruct (ui_morphology s'); cbn; intros _; repeat split; eauto.
    + intros [H|[]]. discriminate H.
  - destruct (ui_morphology s); cbn; intros [H|[]]; discriminate H.
Qed.


(** The run of the analyze action up to the analysis routine, when a file
    was loaded and the sketch routine returned. *)
Lemma analyze_with_sketch_done
    (s s1 s2 s3 : Session) (r : LoadingResult) (outcome : Result bool) :
  load_morphology s = (Ok (Some r), s1) ->
  sketch_morphology_skeleton_guide (ui_morphology s1) (deepcopy_reference s1)
    (session_after_deepcopy s1) = (Ok tt, s2) ->
  analyze_morphology (ui_morphology s2) s2 = (outcome, s3) ->
  AnalyzeMorphology_execute s =
    (match outcome with Ok _ => Ok FINISHED | Raise e => Raise e end,
     match outcome with Ok b => set_MorphologyAnalyzed b s3 | Raise _ => s3 end,
     [CallLoadMorphology; Read Fui_morphology; Read Fui_options;
      DeepCopy (ui_options s1) (deepcopy_reference s1);
      CallSketch (ui_morphology s1) (deepcopy_reference s1);
      Read Fui_morphology; CallAnalyze (ui_morphology s2)]
     ++ match outcome with
        | Ok true => [Write FMorphologyAnalyzed; Read FMorphologyAnalyzed]
        | Ok false =>
            [Write FMorphologyAnalyzed; Read FMorphologyAnalyzed;
             Report WARNING "Corrupted morphology and cannot be analysed!"]
        | Raise _ => []
        end).
Proof.
  intros Hload Hsketch Hanalyze. run_handler. rewrite Hload. cbn.
  unfold session_after_deepcopy in Hsketch. rewrite Hsketch. cbn.
  rewrite Hanalyze. destruct outcome as [[]|e]; reflexivity.
Qed.

(** X8. When a file was loaded, the analyze action sketches the skeleton
    before it analyses it, whatever the analysis then says: the collaborator
    calls are the loader, the sketch routine on the deep copy, and the
    analysis routine, in this order.  Each of the last two receives the
    [ui_morphology] that is current when it is called, not the loader's
    result. *)
Theorem analyze_sketches_before_analysing
    (s s1 s2 s3 : Session) (r : LoadingResult) (outcome : Result bool) :
  load_morphology s = (Ok (Some r), s1) ->
  sketch_morphology_skeleton_guide (ui_morphology s1) (deepcopy_reference s1)
    (session_after_deepcopy s1) = (Ok tt, s2) ->
  analyze_morphology (ui_morphology s2) s2 = (outcome, s3) ->
  List.filter is_call (AnalyzeMorphology_execute s).2
  = [CallLoadMorphology;
     CallSketch (ui_morphology s1) (deepcopy_reference s1);
     CallAnalyze (ui_morphology s2)].
Proof.
  intros Hload Hsketch Hanalyze.
  rewrite (analyze_with_sketch_done s s1 s2 s3 r outcome) by assumption.
  destruct outcome as [[]|e]; reflexivity.
Qed.


(** X10. When creating the analysis directory raises, the export action
    ends with that exception: the export routine is not called and nothing
    is reported. *)
Theorem export_stops_when_directory_creation_fails
    (s s1 s2 s3 s4 : Session) (p : string) (e : Exception) :
  output_directory (ui_io s) = Some p ->
  logger_log (OutputDirectory (scene s)) s = (Ok tt, s1) ->
  path_exists (Some (OutputDirectory (scene s1))) s1 = (Ok true, s2) ->
  path_exists (analysis_directory (ui_io s2)) s2 = (Ok false, s3) ->
  clean_and_create_directory (analysis_directory (ui_io s3)) s3 = (Raise e, s4) ->
  exists t : list Event,
    ExportAnalysisResults_execute s = (Raise e, s4, t)
    /\ List.filter is_export_call t = []
    /\ List.filter is_report t = []
    /\ last t = Some (CallCleanAndCreateDirectory (analysis_directory (ui_io s3))).
Proof.
  intros Hout Hlog Hscene Hana Hclean. unfold ui_io in *. eexists. split.
  - run_handler. rewrite Hout. cbn. rewrite Hlog. cbn. rewrite Hscene. cbn.
    rewrite Hana. cbn. rewrite Hclean. reflexivity.
  - repeat split.
Qed.

(** X11. The export action writes to the file system only after its two
    checks have passed: a run that creates a directory or calls the export
    routine started with [output_directory] set, a logger call that
    returned, and [path_exists] answering true for the scene-level
    [OutputDirectory]. *)
Theorem export_writes_only_after_validation (s : Session) :
  List.filter is_filesystem_write (ExportAnalysisResults_execute s).2 <> [] ->
  (exists p, output_directory (ui_io s) = Some p)
  /\ exists s1 s2,
       logger_log (OutputDirectory (scene s)) s = (Ok tt, s1)
       /\ path_exists (Some (OutputDirectory (scene s1))) s1 = (Ok true, s2).
Proof.
  unfold ui_io. run_handler.
  destruct (output_directory _) as [p|]; cbn; [ | congruence ].
  destruct (logger_log _ _) as [[[]|e] s1] eqn:Hlog; cbn; [ | congruence ].
  destruct (path_exists _ s1) as [[found|e] s2] eqn:Hscene; cbn;
    [ | congruence ].
  destruct found; cbn; [ | congruence ].
  intros _. split; [exists p; reflexivity|].
  exists s1, s2. split; [reflexivity | exact Hscene].
Qed.

(** X12. Analysis followed by drawing: after a run of the analyze action
    in which the analysis routine returned [analyzed], [draw] calls the group
    renderer exactly when [analyzed] is true, and after a failed analysis it
    adds the Analyze button only. *)
Theorem draw_after_analysis
    (s s1 s2 s3 : Session) (r : LoadingResult) (analyzed : bool) (lay : Layout) :
  load_morphology s = (Ok (Some r), s1) ->
  sketch_morphology_skeleton_guide (ui_morphology s1) (deepcopy_reference s1)
    (session_after_deepcopy s1) = (Ok tt, s2) ->
  analyze_morphology (ui_morphology s2) s2 = (Ok analyzed, s3) ->
  let t := (AnalysisPanel_draw ((AnalyzeMorphology_execute s).1.2, lay)).2 in
  List.filter is_call t
  = (if analyzed then [CallAddAnalysisGroups (ui_morphology s3)] else [])
  /\ (analyzed = false ->
      added_widgets t
      = [Column true [Operator "analyze.morphology" "MESH_DATA"]]).
Proof.
  intros Hload Hsketch Hanalyze.
  rewrite (analyze_with_sketch_done s s1 s2 s3 r (Ok analyzed)) by assumption.
  cbn [fst snd]. run_handler. cbn.
  destruct analyzed; cbn.
  - destruct (add_analysis_groups_to_panel _ _) as [[[]|e] [s' lay']]; cbn.
    + destruct (ui_morphology s'); cbn; split; [reflexivity|discriminate
                                                | reflexivity | discriminate].
    + split; [reflexivity | discriminate].
  - destruct (ui_morphology s3); cbn; split; reflexivity.
Qed.

End MoreProperties.

(** * The panel and the registered operators *)

Section PanelAndRegistration.

Context {Morphology LoadingResult Exception External : Type}.
Context {OptionsRest ForeignWidget : Type}.
Context {nmv : @Collaborators Morphology LoadingResult Exception External
                              OptionsRest ForeignWidget}.
Context {HostException Host : Type}.
Context {bpy : @Bpy HostException Host}.

(** X13. Every button [draw] adds is bound to an operator that
    [register_panel] registers: its identifier is the [bl_idname] of an
    operator class among the classes of a completed registration. *)
Theorem draw_buttons_are_registered_operators
    (s : @Session Morphology External OptionsRest)
    (lay : @Layout ForeignWidget) (idname : string) :
  In idname (button_idnames (added_widgets (AnalysisPanel_draw (s, lay)).2)) ->
  exists c : BlenderClass,
    base c = bpy_types_Operator
    /\ bl_idname c = Some idname
    /\ forall (h h' : Host) (t : list RegistryCall),
         register_panel h = (Ok tt, h', t) -> In (RegisterClass c) t.
Proof.
  assert (Hanalyze : forall (h h' : Host) t,
             register_panel h = (Ok tt, h', t) ->
             In (RegisterClass AnalyzeMorphology) t).
  { intros h h' t H. rewrite (register_panel_completed _ _ _ H).
    right; left; reflexivity. }
  assert (Hexport : forall (h h' : Host) t,
             register_panel h = (Ok tt, h', t) ->
             In (RegisterClass ExportAnalysisResults) t).
  { intros h h' t H. rewrite (register_panel_completed _ _ _ H).
    right; right; left; reflexivity. }
  unfold AnalysisPanel_draw, layout_add, layout_set_enabled,
         mbind, M_bind, mret, M_ret, bind, ret, read, call.
  cbn.
  destruct (MorphologyAnalyzed (scene s)); cbn.
  - destruct (add_analysis_groups_to_panel _ _) as [[[]|e] [s' lay']]; cbn.
    + destruct (ui_morphology s'); cbn;
        (intros [<-|[<-|[]]];
         [ exists AnalyzeMorphology | exists ExportAnalysisResults ]; auto).
    + intros [<-|[]]. exists AnalyzeMorphology; auto.
  - destruct (ui_morphology s); cbn;
      (intros [<-|[]]; exists AnalyzeMorphology; auto).
Qed.

End PanelAndRegistration.

(** * More concrete runs *)

#[local] Existing Instance DemoHost.BlenderBase_eq_dec.
#[local] Existing Instance DemoHost.BlenderClass_eq_dec.

Lemma filter_out_absent (c : BlenderClass) (registry : list BlenderClass) :
  c ∉ registry ->
  List.filter (fun d => negb (bool_decide (d = c))) registry = registry.
Proof.
  induction registry as [|d registry IH]; intros Hc; [reflexivity|].
  cbn. apply not_elem_of_cons in Hc as [Hne Hc].
  rewrite bool_decide_eq_false_2 by congruence. cbn. f_equal. auto.
Qed.

Lemma demo_unregister_undoes_register
    (c : BlenderClass) (g g' : list BlenderClass) :
  DemoHost.register c g = (Ok tt, g') -> DemoHost.unregister c g' = (Ok tt, g).
Proof.
  unfold DemoHost.register, DemoHost.unregister.
  destruct (decide (c ∈ g)) as [|Hc]; [discriminate|]. intros [= <-].
  rewrite decide_True by (left). cbn.
  rewrite bool_decide_eq_true_2 by reflexivity. cbn.
  rewrite filter_out_absent by assumption. reflexivity.
Qed.

Lemma demo_register_unregister_commute
    (c d : BlenderClass) (g g1 g2 : list BlenderClass) :
  c <> d ->
  DemoHost.register d g = (Ok tt, g1) ->
  DemoHost.unregister c g = (Ok tt, g2) ->
  exists g3, DemoHost.unregister c g1 = (Ok tt, g3)
             /\ DemoHost.register d g2 = (Ok tt, g3).
Proof.
  unfold DemoHost.register, DemoHost.unregister. intros Hne.
  destruct (decide (d ∈ g)) as [|Hd]; [discriminate|]. intros [= <-].
  destruct (decide (c ∈ g)) as [Hc|]; [|discriminate]. intros [= <-].
  rewrite decide_True by (right; assumption). cbn.
  rewrite bool_decide_eq_false_2 by congruence. cbn.
  eexists. split; [reflexivity|].
  rewrite decide_False; [reflexivity|].
  intros Hin. apply Hd. apply list_elem_of_In in Hin.
  apply List.filter_In in Hin as [Hin _]. apply list_elem_of_In. exact Hin.
Qed.

Lemma unregister_panel_undoes_register_panel_witness :
  register_panel (bpy := DemoHost.host) []
  = (Ok tt, [ExportAnalysisResults; AnalyzeMorphology; AnalysisPanel],
     [RegisterClass AnalysisPanel; RegisterClass AnalyzeMorphology;
      RegisterClass ExportAnalysisResults])
  /\ unregister_panel (bpy := DemoHost.host)
       [ExportAnalysisResults; AnalyzeMorphology; AnalysisPanel]
     = (Ok tt, [],
        [UnregisterClass AnalysisPanel; UnregisterClass AnalyzeMorphology;
         UnregisterClass ExportAnalysisResults]).
Proof.
  assert (Hreg : register_panel (bpy := DemoHost.host) []
                 = (Ok tt, [ExportAnalysisResults; AnalyzeMorphology; AnalysisPanel],
                    [RegisterClass AnalysisPanel; RegisterClass AnalyzeMorphology;
                     RegisterClass ExportAnalysisResults]))
    by reflexivity.
  split; [exact Hreg|].
  apply (unregister_panel_undoes_register_panel (bpy := DemoHost.host)
           [] _ _
           demo_unregister_undoes_register
           demo_register_unregister_commute Hreg).
Defined.

Lemma draw_before_analysis_witness :
  let s :=
    Demo.session false "/out" None None None Demo.no_file_selected in
  exists lay' t,
    AnalysisPanel_draw (s, Demo.empty_layout) = (Ok tt, (s, lay'), t)
    /\ widgets lay' = [Column true [Operator "analyze.morphology" "MESH_DATA"]]
    /\ enabled lay' = false
    /\ List.filter is_call t = []
    /\ added_widgets t = [Column true [Operator "analyze.morphology" "MESH_DATA"]].
Proof.
  intros s. apply (draw_before_analysis s Demo.empty_layout). reflexivity.
Defined.

Lemma draw_export_button_needs_analysis_witness :
  let s :=
    Demo.session true "/out" (Some 3) (Some "/out") None
                 Demo.healthy_file_selected in
  let t := (AnalysisPanel_draw (s, Demo.empty_layout)).2 in
  In "export.analysis_results" (button_idnames (added_widgets t))
  /\ MorphologyAnalyzed (scene s) = true
  /\ added_widgets t
     = [Column true [Operator "analyze.morphology" "MESH_DATA"];
        Row [Operator "export.analysis_results" "MESH_DATA"]].
Proof.
  intros s t.
  assert (Hin : In "export.analysis_results" (button_idnames (added_widgets t)))
    by (right; left; reflexivity).
  split; [exact Hin|].
  destruct (draw_export_button_needs_analysis s Demo.empty_layout Hin)
    as (Hflag & _ & Hadded).
  split; [exact Hflag | exact Hadded].
Defined.

Lemma analyze_sketches_before_analysing_witness :
  let s :=
    Demo.session false "/out" None (Some "/out") None
                 Demo.corrupted_file_selected in
  let s1 := Demo.with_morphology (Some 3) s in
  List.filter is_call (AnalyzeMorphology_execute s).2
  = [CallLoadMorphology; CallSketch (Some 3) (deepcopy_reference s1);
     CallAnalyze (Some 3)].
Proof.
  intros s s1.
  pose (s2 := (Demo.sketch (Some 3) (deepcopy_reference s1)
                           (session_after_deepcopy s1)).2).
  apply (analyze_sketches_before_analysing
           s s1 s2 s2 "NEW_MORPHOLOGY_LOADED" (Ok false)); reflexivity.
Defined.


Lemma export_stops_when_directory_creation_fails_witness :
  let s :=
    Demo.session true "/out" (Some 3) (Some "/out") (Some "/out/analysis")
                 Demo.output_directory_on_disk in
  exists t,
    ExportAnalysisResults_execute (nmv := DemoHost.read_only_addon) s
    = (Raise "PermissionError", s, t)
    /\ List.filter is_export_call t = []
    /\ List.filter is_report t = []
    /\ last t = Some (CallCleanAndCreateDirectory (Some "/out/analysis")).
Proof.
  intros s.
  apply (export_stops_when_directory_creation_fails
           (nmv := DemoHost.read_only_addon)
           s s s s s "/out" "PermissionError"); reflexivity.
Defined.

Lemma export_writes_only_after_validation_witness :
  let s :=
    Demo.session true "/out" (Some 3) (Some "/out") (Some "/out/analysis")
                 Demo.output_directory_on_disk in
  List.filter is_filesystem_write (ExportAnalysisResults_execute s).2 <> []
  /\ (exists p, output_directory (ui_io s) = Some p)
  /\ exists s1 s2,
       logger_log (OutputDirectory (scene s)) s = (Ok tt, s1)
       /\ path_exists (Some (OutputDirectory (scene s1))) s1 = (Ok true, s2).
Proof.
  intros s.
  assert (Hwrites : List.filter is_filesystem_write
                      (ExportAnalysisResults_execute s).2 <> [])
    by discriminate.
  split; [exact Hwrites|].
  exact (export_writes_only_after_validation s Hwrites).
Defined.

Lemma draw_after_analysis_witness :
  let s :=
    Demo.session true "/out" None (Some "/out") None
                 Demo.corrupted_file_selected in
  let t :=
    (AnalysisPanel_draw ((AnalyzeMorphology_execute s).1.2, Demo.empty_layout)).2 in
  List.filter is_call t = []
  /\ (false = false ->
      added_widgets t
      = [Column true [Operator "analyze.morphology" "MESH_DATA"]]).
Proof.
  intros s t.
  pose (s1 := Demo.with_morphology (Some 3) s).
  pose (s2 := (Demo.sketch (Some 3) (deepcopy_reference s1)
                           (session_after_deepcopy s1)).2).
  apply (draw_after_analysis s s1 s2 s2 "NEW_MORPHOLOGY_LOADED" false
                             Demo.empty_layout); reflexivity.
Defined.

Lemma draw_buttons_are_registered_operators_witness :
  let s :=
    Demo.session true "/out" (Some 3) (Some "/out") None
                 Demo.healthy_file_selected in
  In "export.analysis_results"
     (button_idnames (added_widgets (AnalysisPanel_draw (s, Demo.empty_layout)).2))
  /\ exists c : BlenderClass,
       base c = bpy_types_Operator
       /\ bl_idname c = Some "export.analysis_results"
       /\ forall (h h' : list BlenderClass) (t : list RegistryCall),
            register_panel (bpy := DemoHost.host) h = (Ok tt, h', t) ->
            In (RegisterClass c) t.
Proof.
  intros s.
  assert (Hin : In "export.analysis_results"
                   (button_idnames
                      (added_widgets (AnalysisPanel_draw (s, Demo.empty_layout)).2)))
    by (right; left; reflexivity).
  split; [exact Hin|].
  exact (draw_buttons_are_registered_operators
           (bpy := DemoHost.host) s Demo.empty_layout
           "export.analysis_results" Hin).
Defined.
